(** * TalentFinderAI: a shallow embedding of [src/ai/talent_finder.py]

    The module wraps three pretrained models (a named-entity recogniser, a
    sentence encoder and an optional T5 generator) and offers resume
    parsing, keyword skill extraction, candidate/job scoring, ranking and
    profile summaries.  The pretrained models and scikit-learn's cosine
    kernel are third-party code: they appear here as fields of the object
    and as a class of library functions, never as definitions of ours.

    Conventions of the embedding:
    - a Python [str] is a [string]; [lower] and [title] follow [str.lower]
      and [str.title] on the ASCII letters (every keyword of the program is
      ASCII);
    - a Python [float] that is finite is the rational it denotes ([Q]);
    - a Python [set] is an abstract type with an unspecified iteration
      order ([PySet]);
    - a [dict] with string keys is a [gmap string _];
    - calls into the pretrained models are logged ([Traced]);
    - console output ([verbose]) is not modelled. *)

From Stdlib Require Import ZArith QArith String Ascii List Lia.
From Stdlib Require Import Sorting.Sorted Permutation.
From stdpp Require Import base list strings gmap sets.

(* ================================================================= *)
(** ** Python strings *)

Module PyStr.

Definition is_upper (c : ascii) : bool :=
  (65 <=? nat_of_ascii c)%nat && (nat_of_ascii c <=? 90)%nat.

Definition is_lower (c : ascii) : bool :=
  (97 <=? nat_of_ascii c)%nat && (nat_of_ascii c <=? 122)%nat.

(** A character is cased when it is a letter. *)
Definition is_cased (c : ascii) : bool := is_upper c || is_lower c.

Definition to_lower (c : ascii) : ascii :=
  if is_upper c then ascii_of_nat (nat_of_ascii c + 32) else c.

Definition to_upper (c : ascii) : ascii :=
  if is_lower c then ascii_of_nat (nat_of_ascii c - 32) else c.

(** [s.lower()] *)
Fixpoint lower (s : string) : string :=
  match s with
  | EmptyString => EmptyString
  | String c s' => String (to_lower c) (lower s')
  end.

(** [s.title()]: a cased character is upper-cased when the character
    before it is not cased (or there is none) and lower-cased otherwise. *)
Fixpoint title_from (previous_is_cased : bool) (s : string) : string :=
  match s with
  | EmptyString => EmptyString
  | String c s' =>
      String (if previous_is_cased then to_lower c else to_upper c)
             (title_from (is_cased c) s')
  end.

Definition title (s : string) : string := title_from false s.

(** [needle in haystack] *)
Fixpoint contains (needle haystack : string) : bool :=
  match haystack with
  | EmptyString => String.prefix needle EmptyString
  | String _ rest =>
      String.prefix needle haystack || contains needle rest
  end.

(** [sep.join(parts)] *)
Definition join (sep : string) (parts : list string) : string :=
  String.concat sep parts.

(** [s[:n]] for a literal [n >= 0] *)
Definition str_take (n : nat) (s : string) : string := substring 0 n s.

End PyStr.

(** [l[:k]] on a list, with Python's reading of a negative stop: it counts
    from the end, and a stop before the start gives the empty list. *)
Definition slice_to {A : Type} (l : list A) (k : Z) : list A :=
  if (k <? 0)%Z
  then take (Z.to_nat (Z.of_nat (length l) + k)) l
  else take (Z.to_nat k) l.

(* ================================================================= *)
(** ** Python sets *)

(** [set(l)], [a & b], [a - b] and [list(s)].  The order in which a set is
    iterated depends on hashes and on the history of the table, so it is
    left open: [members] says which strings a set holds, and [list_of]
    enumerates them once each in some order. *)
Class PySet := {
  pyset : Type;
  set_of : list string → pyset;
  set_and : pyset → pyset → pyset;
  set_sub : pyset → pyset → pyset;
  list_of : pyset → list string;
  members : pyset → gset string;
  members_set_of : ∀ l, members (set_of l) = list_to_set l;
  members_set_and : ∀ a b, members (set_and a b) = members a ∩ members b;
  members_set_sub : ∀ a b, members (set_sub a b) = members a ∖ members b;
  NoDup_list_of : ∀ s, NoDup (list_of s);
  elem_of_list_of : ∀ s x, x ∈ list_of s ↔ x ∈ members s
}.

(** [len(s)] *)
Definition set_len `{PySet} (s : pyset) : nat := length (list_of s).

(* ================================================================= *)
(** ** Exceptions and results *)

Inductive exc : Type :=
| Exception (msg : string)
| ImportError (msg : string)
| TypeError (msg : string)
| AttributeError (msg : string)
| KeyError (msg : string)
| IndexError (msg : string).

(** [str(e)] *)
Definition exc_str (e : exc) : string :=
  match e with
  | Exception m | ImportError m | TypeError m
  | AttributeError m | KeyError m | IndexError m => m
  end.

Inductive result (A : Type) : Type :=
| Ok (a : A)
| Raise (e : exc).
Arguments Ok {A} a.
Arguments Raise {A} e.

Definition result_bind {A B : Type} (f : A → result B) (r : result A) : result B :=
  match r with
  | Ok a => f a
  | Raise e => Raise e
  end.

#[export] Instance result_mret : MRet result := λ A a, Ok a.
#[export] Instance result_mbind : MBind result := λ A B f r, result_bind f r.

(* ================================================================= *)
(** ** The pretrained models and the log of calls into them *)

(** One aggregated entity of the NER pipeline.  The program reads the keys
    with [entity.get(key, default)], so each key may be missing. *)
Record entity : Type := Entity {
  entity_group : option string;
  word : option string;
  score : option Q
}.

Definition Embedding : Type := list Q.
Definition TokenIds : Type := list Z.

Record SentenceTransformer : Type := {
  encode : string → Embedding
}.

Record T5Tokenizer : Type := {
  (** the tokenizer called on a text with [max_length] and truncation *)
  tokenize : string → Z → TokenIds;
  (** [tokenizer.decode], special tokens skipped *)
  decode : TokenIds → string
}.

Record T5Model : Type := {
  (** [model.generate] on the tokenizer's output with [max_length],
      temperature 0.7 and sampling switched on: sampling draws on a random
      state, the last argument; the result is a batch of sequences. *)
  generate : TokenIds → Z → N → list TokenIds
}.

Inductive model_call : Type :=
| NerCall (text : string)
| EncodeCall (text : string)
| TokenizerCall (text : string)
| GenerateCall (max_length : Z)
| DecodeCall (ids : TokenIds).

(** A computation that returns [value] after the listed model calls. *)
Record Traced (A : Type) : Type := Trace {
  value : A;
  calls : list model_call
}.
Arguments Trace {A} value calls.
Arguments value {A} t.
Arguments calls {A} t.

#[export] Instance traced_mret : MRet Traced := λ A a, Trace a [].
#[export] Instance traced_mbind : MBind Traced := λ A B f m,
  let r := f (value m) in Trace (value r) (calls m ++ calls r).

Definition is_summarizer_call (c : model_call) : bool :=
  match c with
  | TokenizerCall _ | GenerateCall _ | DecodeCall _ => true
  | NerCall _ | EncodeCall _ => false
  end.

(** scikit-learn's cosine kernel on one pair of rows. *)
Class Sklearn := cosine_kernel : Embedding → Embedding → Q.

(** [cosine_similarity(X, Y)]: the matrix of the kernel on every pair. *)
Definition cosine_similarity `{Sklearn} (X Y : list Embedding) : list (list Q) :=
  map (λ x, map (cosine_kernel x) Y) X.

(** [m[0][0]]; the program only applies it to a one-by-one matrix. *)
Definition item_0_0 (m : list (list Q)) : Q := nth 0 (nth 0 m []) 0%Q.

(* ================================================================= *)
(** ** The object and its constructor *)

Record TalentFinderAI : Type := {
  ner : string → list entity;
  similarity_model : SentenceTransformer;
  summarizer_tokenizer : option T5Tokenizer;
  summarizer_model : option T5Model;
  has_summarizer : bool
}.

(** What each loading step of the constructor does in a given
    installation: it yields the loaded model or raises. *)
Record loaders : Type := {
  load_ner : result (string → list entity);
  load_similarity_model : result SentenceTransformer;
  import_t5 : result unit;
  load_t5_tokenizer : result T5Tokenizer;
  load_t5_model : result T5Model;
  t5_eval : T5Model → result unit
}.

Definition newline : string := String (ascii_of_nat 10) EmptyString.

Definition error_msg (e : exc) : string :=
  (newline +:+ "Error loading models: " +:+ exc_str e +:+ newline +:+ newline)
  +:+ ("Make sure you have installed:" +:+ newline)
  +:+ "  pip install transformers sentence-transformers scikit-learn sentencepiece".

(** The body of the inner [try]: import, tokenizer, model, [eval()]. *)
Definition load_summarizer (w : loaders) : result (T5Tokenizer * T5Model) :=
  _ ← import_t5 w;
  tokenizer ← load_t5_tokenizer w;
  model ← load_t5_model w;
  _ ← t5_eval w model;
  mret (tokenizer, model).

(** The body of the outer [try].  The inner [except Exception] turns a
    failed summarizer into the three fallback assignments. *)
Definition load_models (w : loaders) : result TalentFinderAI :=
  ner_pipeline ← load_ner w;
  similarity ← load_similarity_model w;
  match load_summarizer w with
  | Ok (tokenizer, model) =>
      mret {| ner := ner_pipeline;
              similarity_model := similarity;
              summarizer_tokenizer := Some tokenizer;
              summarizer_model := Some model;
              has_summarizer := true |}
  | Raise _ =>
      mret {| ner := ner_pipeline;
              similarity_model := similarity;
              summarizer_tokenizer := None;
              summarizer_model := None;
              has_summarizer := false |}
  end.

(** [TalentFinderAI.__init__]: the outer [except Exception] re-raises
    every failure as an [ImportError]. *)
Definition __init__ (w : loaders) : result TalentFinderAI :=
  match load_models w with
  | Ok self => Ok self
  | Raise e => Raise (ImportError (error_msg e))
  end.

(* ================================================================= *)
(** ** Skill keywords *)

(** The list of [parse_resume]. *)
Definition resume_skills_keywords : list string :=
  [ "python"; "javascript"; "java"; "react"; "angular"; "vue"; "node.js";
    "sql"; "mongodb"; "postgresql"; "mysql"; "redis";
    "aws"; "azure"; "gcp"; "docker"; "kubernetes"; "jenkins";
    "git"; "github"; "gitlab"; "ci/cd";
    "machine learning"; "deep learning"; "ai"; "tensorflow"; "pytorch";
    "html"; "css"; "typescript"; "php"; "ruby"; "go"; "rust";
    "leadership"; "communication"; "teamwork"; "project management";
    "agile"; "scrum"; "problem solving"; "analytical"; "creative" ].

(** The list of [extract_skills]. *)
Definition skills_keywords : list string :=
  [ "python"; "javascript"; "java"; "react"; "angular"; "vue"; "node.js";
    "sql"; "mongodb"; "postgresql"; "aws"; "azure"; "docker"; "kubernetes";
    "machine learning"; "ai"; "tensorflow"; "pytorch";
    "leadership"; "communication"; "project management"; "agile"; "scrum" ].

(** The keywords that only [parse_resume] looks for. *)
Definition resume_only_keywords : list string :=
  filter (λ k, k ∉ skills_keywords) resume_skills_keywords.

(** The loop [for skill in keywords: if skill in text_lower:
    found.append(skill.title())], started from [found]. *)
Definition scan_keywords (keywords : list string) (text_lower : string)
    (found : list string) : list string :=
  fold_left
    (λ found skill,
       if PyStr.contains skill text_lower
       then found ++ [PyStr.title skill]
       else found)
    keywords found.

Section Methods.
Context `{PySet} `{Sklearn}.

(** [list(set(l))] *)
Definition remove_duplicates (l : list string) : list string :=
  list_of (set_of l).

(* =============================================================== *)
(** ** [extract_skills] *)

Definition extract_skills (text : string) : list string :=
  let text_lower := PyStr.lower text in
  let found_skills := scan_keywords skills_keywords text_lower [] in
  remove_duplicates found_skills.

(* =============================================================== *)
(** ** [parse_resume] *)

Definition extracted_init : gmap string (list string) :=
  list_to_map
    [ ("names", []); ("companies", []); ("locations", []);
      ("skills", []); ("job_titles", []); ("education", []) ].

(** [d[key].append(x)]; every key the program appends to is one of the
    six keys of the literal above. *)
Definition dict_append (key x : string) (d : gmap string (list string))
    : gmap string (list string) :=
  alter (λ l, l ++ [x]) key d.

(** One round of the loop over the entities. *)
Definition organize (extracted : gmap string (list string)) (e : entity)
    : gmap string (list string) :=
  let entity_type := default EmptyString (entity_group e) in
  let entity_text := default EmptyString (word e) in
  if String.eqb entity_type "PER" then dict_append "names" entity_text extracted
  else if String.eqb entity_type "ORG" then dict_append "companies" entity_text extracted
  else if String.eqb entity_type "LOC" then dict_append "locations" entity_text extracted
  else extracted.

(** The loop [for skill in skills_keywords: if skill in resume_lower:
    extracted["skills"].append(skill.title())]. *)
Definition scan_into (keywords : list string) (text_lower : string)
    (d : gmap string (list string)) : gmap string (list string) :=
  fold_left
    (λ extracted skill,
       if PyStr.contains skill text_lower
       then dict_append "skills" (PyStr.title skill) extracted
       else extracted)
    keywords d.

Definition call_ner (self : TalentFinderAI) (text : string) : Traced (list entity) :=
  Trace (ner self text) [NerCall text].

Definition parse_resume (self : TalentFinderAI) (resume_text : string)
    : Traced (gmap string (list string)) :=
  entities ← call_ner self resume_text;
  let extracted := fold_left organize entities extracted_init in
  let resume_lower := PyStr.lower resume_text in
  let extracted := scan_into resume_skills_keywords resume_lower extracted in
  let extracted := remove_duplicates <$> extracted in
  mret extracted.

(* =============================================================== *)
(** ** [match_candidate_to_job] *)

Record match_result : Type := {
  overall_match_score : Q;
  skill_match_ratio : Q;
  matched_skills : list string;
  missing_skills : list string;
  candidate_skills : list string;
  required_skills : list string
}.

Definition call_encode (self : TalentFinderAI) (text : string) : Traced Embedding :=
  Trace (encode (similarity_model self) text) [EncodeCall text].

(** [len(matched) / len(required) if required else 0]; the quotient of
    the two lengths is taken exactly. *)
Definition match_ratio (matched : pyset) (required : list string) : Q :=
  match required with
  | [] => 0
  | _ :: _ =>
      inject_Z (Z.of_nat (set_len matched))
      / inject_Z (Z.of_nat (length required))
  end.

Definition match_candidate_to_job (self : TalentFinderAI)
    (candidate_profile job_description : string) : Traced match_result :=
  candidate_embedding ← call_encode self candidate_profile;
  job_embedding ← call_encode self job_description;
  let similarity_score :=
    item_0_0 (cosine_similarity [candidate_embedding] [job_embedding]) in
  let required := extract_skills job_description in
  let candidate := extract_skills candidate_profile in
  let matched := set_and (set_of required) (set_of candidate) in
  let ratio := match_ratio matched required in
  mret {| overall_match_score := similarity_score;
          skill_match_ratio := ratio;
          matched_skills := list_of matched;
          missing_skills := list_of (set_sub (set_of required) (set_of candidate));
          candidate_skills := candidate;
          required_skills := required |}.

(* =============================================================== *)
(** ** [find_top_candidates] *)

(** A match result after the loop has added its two keys. *)
Record candidate_result : Type := {
  matching : match_result;
  candidate_id : nat;
  profile_preview : string
}.

Definition match_score (r : candidate_result) : Q :=
  overall_match_score (matching r).

(** [profile[:150] + "..." if len(profile) > 150 else profile] *)
Definition preview (profile : string) : string :=
  if (150 <? String.length profile)%nat
  then PyStr.str_take 150 profile +:+ "..."
  else profile.

(** The loop over [enumerate(candidate_profiles)], counting from [i]. *)
Fixpoint match_each (self : TalentFinderAI) (job_description : string)
    (i : nat) (profiles : list string) : Traced (list candidate_result) :=
  match profiles with
  | [] => mret []
  | profile :: rest =>
      match_result ← match_candidate_to_job self profile job_description;
      let entry := {| matching := match_result;
                      candidate_id := i;
                      profile_preview := preview profile |} in
      results ← match_each self job_description (S i) rest;
      mret (entry :: results)
  end.

(** [l.sort(key=key, reverse=True)].  Python's sort is stable and compares
    keys with [<] only; with [reverse=True] equal keys keep their order.
    [insert_reverse key x l] puts [x] in front of a descending [l] whose
    elements all came after [x]. *)
Definition key_lt {A : Type} (key : A → Q) (x y : A) : bool :=
  negb (Qle_bool (key y) (key x)).

Fixpoint insert_reverse {A : Type} (key : A → Q) (x : A) (l : list A) : list A :=
  match l with
  | [] => [x]
  | y :: l' =>
      if key_lt key x y then y :: insert_reverse key x l' else x :: l
  end.

Definition sort_reverse {A : Type} (key : A → Q) (l : list A) : list A :=
  foldr (insert_reverse key) [] l.

Definition find_top_candidates (self : TalentFinderAI)
    (job_description : string) (candidate_profiles : list string)
    (top_k : Z) : Traced (list candidate_result) :=
  results ← match_each self job_description 0 candidate_profiles;
  let results := sort_reverse match_score results in
  mret (slice_to results top_k).

(* =============================================================== *)
(** ** [summarize_profile] *)

Definition call_tokenizer (tokenizer : T5Tokenizer) (text : string)
    (max_length : Z) : Traced TokenIds :=
  Trace (tokenize tokenizer text max_length) [TokenizerCall text].

Definition call_generate (model : T5Model) (inputs : TokenIds)
    (max_length : Z) (rng : N) : Traced (list TokenIds) :=
  Trace (generate model inputs max_length rng) [GenerateCall max_length].

Definition call_decode (tokenizer : T5Tokenizer) (ids : TokenIds)
    : Traced string :=
  Trace (decode tokenizer ids) [DecodeCall ids].

(** The fallback branch, taken when [has_summarizer] is false. *)
Definition fallback_summary (self : TalentFinderAI) (profile_text : string)
    : Traced (result string) :=
  let skills := extract_skills profile_text in
  parsed ← parse_resume self profile_text;
  let summary :=
    "Skills: " +:+ PyStr.join ", " (slice_to skills 5) +:+ ". " in
  match parsed !! "companies" with
  | None => mret (Raise (KeyError "companies"))
  | Some [] => mret (Ok summary)
  | Some ((_ :: _) as companies) =>
      mret (Ok (summary +:+ ("Experience at: "
                  +:+ PyStr.join ", " (slice_to companies 2) +:+ ".")))
  end.

(** The branch that runs the T5 model. *)
Definition generated_summary (self : TalentFinderAI) (profile_text : string)
    (max_length : Z) (rng : N) : Traced (result string) :=
  let input_text :=
    "Summarize this candidate profile: " +:+ PyStr.str_take 500 profile_text in
  match summarizer_tokenizer self with
  | None => mret (Raise (TypeError "'NoneType' object is not callable"))
  | Some tokenizer =>
      inputs ← call_tokenizer tokenizer input_text 512;
      match summarizer_model self with
      | None =>
          mret (Raise (AttributeError
                  "'NoneType' object has no attribute 'generate'"))
      | Some model =>
          outputs ← call_generate model inputs max_length rng;
          match outputs with
          | [] => mret (Raise (IndexError "index 0 is out of bounds"))
          | first :: _ =>
              summary ← call_decode tokenizer first;
              mret (Ok summary)
          end
      end
  end.

Definition summarize_profile (self : TalentFinderAI) (profile_text : string)
    (max_length : Z) (rng : N) : Traced (result string) :=
  if negb (has_summarizer self)
  then fallback_summary self profile_text
  else generated_summary self profile_text max_length rng.

(* =============================================================== *)
(** ** Vocabulary of the properties *)

(** [k] occurs in [s]: some text before it, some text after it. *)
Definition occurs_in (k s : string) : Prop :=
  ∃ before after, s = before +:+ k +:+ after.

(** The six keys of a parsed resume. *)
Definition resume_keys : gset string :=
  list_to_set [ "names"; "companies"; "locations";
                "skills"; "job_titles"; "education" ].

(** [a] may stand before [b] in a descending list. *)
Definition descending {A : Type} (key : A → Q) (a b : A) : Prop :=
  (key b <= key a)%Q.

(** The entry the loop builds for the profile at position [i]. *)
Definition candidate_entry (self : TalentFinderAI) (job_description : string)
    (i : nat) (profile : string) : candidate_result :=
  {| matching := value (match_candidate_to_job self profile job_description);
     candidate_id := i;
     profile_preview := preview profile |}.

(** The per-candidate match results, in the order of the profiles. *)
Definition per_candidate (self : TalentFinderAI) (job_description : string)
    (candidate_profiles : list string) : list candidate_result :=
  imap (candidate_entry self job_description) candidate_profiles.

(** The skills of a parsed resume, read as the claim C4 reads them. *)
Definition same_skills_as_extract_skills (self : TalentFinderAI)
    (text : string) : Prop :=
  ∃ skills, value (parse_resume self text) !! "skills" = Some skills
            ∧ ∀ s, s ∈ skills ↔ s ∈ extract_skills text.

(** The claim C1 at one input: the returned list is the first [top_k]
    entries of the per-candidate results sorted by descending score, it
    has [min(top_k, len(candidate_profiles))] entries, and no candidate
    left out scores higher than a returned one. *)
Definition top_candidates_claim (self : TalentFinderAI)
    (job_description : string) (candidate_profiles : list string)
    (top_k : Z) : Prop :=
  let returned :=
    value (find_top_candidates self job_description candidate_profiles top_k) in
  let results := per_candidate self job_description candidate_profiles in
  (∃ sorted, sorted ≡ₚ results
             ∧ StronglySorted (descending match_score) sorted
             ∧ returned = take (Z.to_nat top_k) sorted)
  ∧ Z.of_nat (length returned)
    = Z.min top_k (Z.of_nat (length candidate_profiles))
  ∧ ∀ r c, r ∈ returned → c ∈ results → c ∉ returned →
           (match_score c <= match_score r)%Q.

(** The words of the entities of one group, as [parse_resume] reads them:
    a missing key reads as the empty string. *)
Definition entity_words (group : string) (entities : list entity)
    : list string :=
  (λ e, default EmptyString (word e))
    <$> filter (λ e, default EmptyString (entity_group e) = group) entities.

(** The model calls of the loop of [find_top_candidates]: each profile is
    encoded, and the job description is encoded again after each one. *)
Definition encode_calls (job_description : string)
    (candidate_profiles : list string) : list model_call :=
  candidate_profiles ≫= λ profile,
    [EncodeCall profile; EncodeCall job_description].

(** The prompt of the generated summary. *)
Definition summary_prompt (profile_text : string) : string :=
  "Summarize this candidate profile: " +:+ PyStr.str_take 500 profile_text.

(** The keys that the entity loop of [parse_resume] fills, each with the
    entity group it collects. *)
Definition entity_keys : list (string * string) :=
  [ ("names", "PER"); ("companies", "ORG"); ("locations", "LOC") ].

(** [a] is ranked before [b]: it has the higher key, or the keys are equal
    and [a] comes first in the order [R] of the input. *)
Definition ranked_before {A : Type} (key : A → Q) (R : A → A → Prop)
    (a b : A) : Prop :=
  (key b < key a)%Q ∨ ((key a == key b)%Q ∧ R a b).

(** The order of the candidates in the input. *)
Definition earlier (a b : candidate_result) : Prop :=
  candidate_id a < candidate_id b.

End Methods.

(* ================================================================= *)
(** ** A concrete installation, for running the definitions *)

Module Demo.

(** Sets as [gset string], listed in the order of [elements]. *)
Definition gset_sets : PySet.
Proof.
  refine {| pyset := gset string;
            set_of := list_to_set;
            set_and := λ a b, a ∩ b;
            set_sub := λ a b, a ∖ b;
            list_of := elements;
            members := λ s, s |}.
  - reflexivity.
  - reflexivity.
  - reflexivity.
  - apply NoDup_elements.
  - intros s x. apply elem_of_elements.
Defined.

(** On rows of norm one the cosine kernel is the dot product. *)
Fixpoint dot (x y : Embedding) : Q :=
  match x, y with
  | a :: x', b :: y' => (a * b + dot x' y')%Q
  | _, _ => 0%Q
  end.

Definition unit_kernel : Sklearn := dot.

(** An encoder with two unit vectors: texts that mention "python" and
    the others. *)
Definition toy_encoder : SentenceTransformer :=
  {| encode := λ text,
       if PyStr.contains "python" (PyStr.lower text)
       then [1; 0]%Q else [3 # 5; 4 # 5]%Q |}.

(** A recogniser that finds one organisation in every text. *)
Definition toy_ner (text : string) : list entity :=
  [ {| entity_group := Some "ORG"; word := Some "Google"; score := Some (9 # 10) |} ].

(** An installation without [sentencepiece]: the T5 tokenizer fails. *)
Definition no_sentencepiece : loaders :=
  {| load_ner := Ok toy_ner;
     load_similarity_model := Ok toy_encoder;
     import_t5 := Ok tt;
     load_t5_tokenizer := Raise (ImportError "sentencepiece is missing");
     load_t5_model := Ok {| generate := λ _ _ _, [[0%Z]] |};
     t5_eval := λ _, Ok tt |}.

Definition finder : TalentFinderAI :=
  {| ner := toy_ner;
     similarity_model := toy_encoder;
     summarizer_tokenizer := None;
     summarizer_model := None;
     has_summarizer := false |}.

End Demo.

(** Further installations and objects, for running the definitions. *)
Module Cases.


(** A tokenizer that counts characters and a model that echoes. *)
Definition toy_tokenizer : T5Tokenizer :=
  {| tokenize := λ text _, [Z.of_nat (String.length text)];
     decode := λ ids, if decide (ids = [534%Z]) then "long" else "short" |}.

Definition toy_t5 : T5Model :=
  {| generate := λ inputs _ _, [inputs] |}.

Definition full_install : loaders :=
  {| load_ner := Ok Demo.toy_ner;
     load_similarity_model := Ok Demo.toy_encoder;
     import_t5 := Ok tt;
     load_t5_tokenizer := Ok toy_tokenizer;
     load_t5_model := Ok toy_t5;
     t5_eval := λ _, Ok tt |}.

Definition full_finder : TalentFinderAI :=
  {| ner := Demo.toy_ner;
     similarity_model := Demo.toy_encoder;
     summarizer_tokenizer := Some toy_tokenizer;
     summarizer_model := Some toy_t5;
     has_summarizer := true |}.

(** An encoder under which every text scores the same. *)
Definition flat_finder : TalentFinderAI :=
  {| ner := Demo.toy_ner;
     similarity_model := {| encode := λ _, [1%Q; 0%Q] |};
     summarizer_tokenizer := None;
     summarizer_model := None;
     has_summarizer := false |}.




(** A profile of 500 characters. *)
Definition long_profile : string :=
  String.concat EmptyString (replicate 50 "python sql")%string.

End Cases.


(* ================================================================= *)
(** * Properties *)

(** ** Substring test *)


Lemma append_cons (c : ascii) (s t : string) :
  String c s +:+ t = String c (s +:+ t).
Proof. reflexivity. Qed.

Lemma prefix_spec (k s : string) :
  String.prefix k s = true ↔ ∃ after, s = k +:+ after.
Proof.
  revert s. induction k as [|c k IH]; intros s.
  - split; [intros _; by exists s | by destruct s].
  - destruct s as [|d s]; simpl.
    + split; [done | intros [after Heq]; discriminate].
    + destruct (Ascii.ascii_dec c d) as [->|Hne].
      * rewrite IH. split; intros [after Heq]; exists after.
        -- by rewrite append_cons, Heq.
        -- rewrite append_cons in Heq. by injection Heq.
      * split; [done|]. intros [after Heq].
        rewrite append_cons in Heq. injection Heq. congruence.
Qed.

Lemma contains_spec (k s : string) :
  PyStr.contains k s = true ↔ occurs_in k s.
Proof.
  induction s as [|d s IH]; cbn [PyStr.contains].
  - rewrite prefix_spec. split.
    + intros [after Heq]. by exists EmptyString, after.
    + intros ([|b before] & after & Heq); [by exists after | discriminate].
  - rewrite orb_true_iff, prefix_spec, IH. split.
    + intros [[after Heq] | (before & after & Heq)].
      * by exists EmptyString, after.
      * exists (String d before), after. by rewrite append_cons, Heq.
    + intros ([|b before] & after & Heq).
      * left. by exists after.
      * right. rewrite append_cons in Heq. injection Heq as _ Heq.
        by exists before, after.
Qed.

(** ** The keyword scan *)

Lemma scan_keywords_filter (keywords : list string) (text_lower : string)
    (found : list string) :
  scan_keywords keywords text_lower found
  = found ++ map PyStr.title
               (filter (λ k, PyStr.contains k text_lower = true) keywords).
Proof.
  unfold scan_keywords. revert found.
  induction keywords as [|k keywords IH]; intros found; simpl.
  - by rewrite app_nil_r.
  - rewrite IH, filter_cons.
    destruct (PyStr.contains k text_lower) eqn:Hk.
    + rewrite decide_True by done. simpl. by rewrite <- app_assoc.
    + rewrite decide_False by done. done.
Qed.

Lemma elem_of_scan_keywords (keywords : list string) (text_lower s : string) :
  s ∈ scan_keywords keywords text_lower []
  ↔ ∃ k, k ∈ keywords ∧ occurs_in k text_lower ∧ s = PyStr.title k.
Proof.
  rewrite scan_keywords_filter, app_nil_l, list_elem_of_fmap.
  split.
  - intros (k & -> & Hk). apply list_elem_of_filter in Hk as [Hc Hk].
    exists k. by rewrite <- contains_spec.
  - intros (k & Hk & Hc & ->). exists k. split; [done|].
    apply list_elem_of_filter. by rewrite contains_spec.
Qed.

(** ** The log of model calls *)

Lemma value_bind {A B : Type} (m : Traced A) (f : A → Traced B) :
  value (m ≫= f) = value (f (value m)).
Proof. reflexivity. Qed.

Lemma calls_bind {A B : Type} (m : Traced A) (f : A → Traced B) :
  calls (m ≫= f) = calls m ++ calls (f (value m)).
Proof. reflexivity. Qed.

Lemma value_ret {A : Type} (a : A) : value (mret a : Traced A) = a.
Proof. reflexivity. Qed.

Lemma calls_ret {A : Type} (a : A) : calls (mret a : Traced A) = [].
Proof. reflexivity. Qed.

Section Properties.
Context `{PySet} `{Sklearn}.

Lemma elem_of_remove_duplicates (l : list string) (x : string) :
  x ∈ remove_duplicates l ↔ x ∈ l.
Proof.
  unfold remove_duplicates.
  by rewrite elem_of_list_of, members_set_of, elem_of_list_to_set.
Qed.

Lemma NoDup_remove_duplicates (l : list string) :
  NoDup (remove_duplicates l).
Proof. apply NoDup_list_of. Qed.

Lemma remove_duplicates_nil : remove_duplicates [] = [].
Proof.
  apply elem_of_nil_inv. intros x Hx.
  rewrite elem_of_remove_duplicates in Hx. by apply elem_of_nil in Hx.
Qed.

(** C3: [extract_skills] returns, without duplicates and in some order,
    exactly the title-cased forms of the keywords of its fixed list that
    occur in the lower-cased text; in particular every skill it returns
    is the title-cased form of a keyword of the list. *)
Theorem extract_skills_spec (text : string) :
  NoDup (extract_skills text)
  ∧ (∀ s, s ∈ extract_skills text
          ↔ ∃ k, k ∈ skills_keywords
                 ∧ occurs_in k (PyStr.lower text)
                 ∧ s = PyStr.title k)
  ∧ (∀ s, s ∈ extract_skills text → s ∈ map PyStr.title skills_keywords).
Proof.
  assert (∀ s, s ∈ extract_skills text
               ↔ ∃ k, k ∈ skills_keywords
                      ∧ occurs_in k (PyStr.lower text)
                      ∧ s = PyStr.title k) as Hiff.
  { intros s. unfold extract_skills.
    by rewrite elem_of_remove_duplicates, elem_of_scan_keywords. }
  split; [apply NoDup_remove_duplicates | split; [exact Hiff|]].
  intros s Hs. apply Hiff in Hs as (k & Hk & _ & ->).
  apply list_elem_of_fmap. by exists k.
Qed.

(** ** The dictionary of [parse_resume] *)

Lemma dom_extracted_init : dom extracted_init = resume_keys.
Proof. unfold extracted_init, resume_keys. simpl. set_solver. Qed.

Lemma dom_dict_append (key x : string) (d : gmap string (list string)) :
  dom (dict_append key x d) = dom d.
Proof. apply dom_alter_L. Qed.

Lemma lookup_dict_append (key x k : string) (d : gmap string (list string)) :
  dict_append key x d !! k
  = if decide (key = k) then (λ l, l ++ [x]) <$> d !! k else d !! k.
Proof.
  unfold dict_append. rewrite lookup_alter. by case_decide; subst.
Qed.

Lemma dom_organize (d : gmap string (list string)) (e : entity) :
  dom (organize d e) = dom d.
Proof.
  unfold organize. repeat case_match; by rewrite ?dom_dict_append.
Qed.

(** The entity loop only appends to names, companies and locations. *)
Lemma lookup_organize (d : gmap string (list string)) (e : entity) (k : string) :
  k ≠ "names" → k ≠ "companies" → k ≠ "locations" →
  organize d e !! k = d !! k.
Proof.
  intros Hn Hc Hl. unfold organize.
  repeat case_match; rewrite ?lookup_dict_append;
    try done; by rewrite decide_False.
Qed.

Lemma dom_organize_all (es : list entity) (d : gmap string (list string)) :
  dom (fold_left organize es d) = dom d.
Proof.
  revert d. induction es as [|e es IH]; intros d; simpl; [done|].
  by rewrite IH, dom_organize.
Qed.

Lemma lookup_organize_all (es : list entity) (d : gmap string (list string))
    (k : string) :
  k ≠ "names" → k ≠ "companies" → k ≠ "locations" →
  fold_left organize es d !! k = d !! k.
Proof.
  intros Hn Hc Hl. revert d.
  induction es as [|e es IH]; intros d; simpl; [done|].
  by rewrite IH, lookup_organize.
Qed.

Lemma dom_scan_into keywords text_lower d :
  dom (scan_into keywords text_lower d) = dom d.
Proof.
  unfold scan_into. revert d.
  induction keywords as [|k keywords IH]; intros d; simpl; [done|].
  rewrite IH. case_match; by rewrite ?dom_dict_append.
Qed.

Lemma lookup_scan_into keywords text_lower d (k : string) :
  scan_into keywords text_lower d !! k
  = if decide ("skills" = k)
    then scan_keywords keywords text_lower <$> d !! k
    else d !! k.
Proof.
  unfold scan_into, scan_keywords. revert d.
  induction keywords as [|kw keywords IH]; intros d; simpl.
  - case_decide; [by destruct (d !! k) | done].
  - rewrite IH. destruct (PyStr.contains kw text_lower); [|done].
    rewrite lookup_dict_append. case_decide; [|done].
    by destruct (d !! k).
Qed.

Lemma parse_resume_value (self : TalentFinderAI) (resume_text : string) :
  value (parse_resume self resume_text)
  = remove_duplicates
      <$> scan_into resume_skills_keywords (PyStr.lower resume_text)
            (fold_left organize (ner self resume_text) extracted_init).
Proof.
  unfold parse_resume, scan_into, call_ner.
  by rewrite value_bind, value_ret.
Qed.

Lemma parse_resume_calls (self : TalentFinderAI) (resume_text : string) :
  calls (parse_resume self resume_text) = [NerCall resume_text].
Proof.
  unfold parse_resume, call_ner.
  by rewrite calls_bind, calls_ret.
Qed.

Lemma dom_parse_resume (self : TalentFinderAI) (resume_text : string) :
  dom (value (parse_resume self resume_text)) = resume_keys.
Proof.
  rewrite parse_resume_value.
  by rewrite dom_fmap_L, dom_scan_into, dom_organize_all, dom_extracted_init.
Qed.

Lemma parse_resume_skills (self : TalentFinderAI) (resume_text : string) :
  value (parse_resume self resume_text) !! "skills"
  = Some (remove_duplicates
            (scan_keywords resume_skills_keywords (PyStr.lower resume_text) [])).
Proof.
  rewrite parse_resume_value, lookup_fmap, lookup_scan_into.
  rewrite decide_True by done.
  by rewrite lookup_organize_all.
Qed.

Lemma parse_resume_untouched (self : TalentFinderAI) (resume_text k : string) :
  k ∈ [ "job_titles"; "education" ] →
  value (parse_resume self resume_text) !! k = Some [].
Proof.
  intros Hk.
  assert (k ≠ "names" ∧ k ≠ "companies" ∧ k ≠ "locations" ∧ k ≠ "skills"
          ∧ extracted_init !! k = Some []) as (Hn & Hc & Hl & Hs & Hinit).
  { set_unfold. destruct Hk as [-> | [-> | []]]; by repeat split. }
  rewrite parse_resume_value, lookup_fmap, lookup_scan_into.
  rewrite decide_False by done.
  rewrite lookup_organize_all by done.
  rewrite Hinit. simpl. by rewrite remove_duplicates_nil.
Qed.

(** C9: the dictionary returned by [parse_resume] has exactly the six
    keys names, companies, locations, skills, job_titles and education,
    every list in it is free of duplicates, and the lists under
    job_titles and education are empty. *)
Theorem parse_resume_shape (self : TalentFinderAI) (resume_text : string) :
  let extracted := value (parse_resume self resume_text) in
  dom extracted
    = list_to_set [ "names"; "companies"; "locations";
                    "skills"; "job_titles"; "education" ]
  ∧ (∀ key, key ∈ [ "names"; "companies"; "locations";
                    "skills"; "job_titles"; "education" ]
            → ∃ l, extracted !! key = Some l ∧ NoDup l)
  ∧ extracted !! "job_titles" = Some []
  ∧ extracted !! "education" = Some [].
Proof.
  cbv zeta. split; [apply dom_parse_resume|]. split.
  - intros key Hkey.
    assert (key ∈ dom (value (parse_resume self resume_text))) as Hdom.
    { rewrite dom_parse_resume. unfold resume_keys.
      by apply elem_of_list_to_set. }
    apply elem_of_dom in Hdom as [l Hl]. exists l. split; [done|].
    rewrite parse_resume_value, lookup_fmap in Hl.
    destruct (scan_into _ _ _ !! key) as [l0|]; [|done].
    injection Hl as <-. apply NoDup_remove_duplicates.
  - split; apply parse_resume_untouched; set_solver.
Qed.

(** ** The two keyword lists *)

Lemma skills_keywords_in_resume_list (k : string) :
  k ∈ skills_keywords → k ∈ resume_skills_keywords.
Proof.
  assert (Forall (λ k, k ∈ resume_skills_keywords) skills_keywords) as Hall.
  { apply (bool_decide_unpack _). by vm_compute. }
  intros Hk. by apply (proj1 (Forall_forall _ _) Hall).
Qed.

Lemma resume_skills_keywords_split (k : string) :
  k ∈ resume_skills_keywords
  ↔ k ∈ skills_keywords ∨ k ∈ resume_only_keywords.
Proof.
  unfold resume_only_keywords. rewrite list_elem_of_filter. split.
  - intros Hk. destruct (decide (k ∈ skills_keywords)); [by left | by right].
  - intros [Hk | [_ Hk]]; [by apply skills_keywords_in_resume_list | done].
Qed.

(** C4, as the code has it: the skills of [parse_resume] are, as a set,
    the skills of [extract_skills] on the same text together with the
    title-cased forms of the keywords that only the list of
    [parse_resume] has and that occur in the lower-cased text. *)
Theorem parse_resume_skills_vs_extract_skills (self : TalentFinderAI)
    (text : string) :
  ∃ skills, value (parse_resume self text) !! "skills" = Some skills
            ∧ ∀ s, s ∈ skills
                   ↔ s ∈ extract_skills text
                     ∨ ∃ k, k ∈ resume_only_keywords
                            ∧ occurs_in k (PyStr.lower text)
                            ∧ s = PyStr.title k.
Proof.
  eexists. split; [apply parse_resume_skills|]. intros s.
  unfold extract_skills.
  rewrite !elem_of_remove_duplicates, !elem_of_scan_keywords. split.
  - intros (k & Hk & Hocc & ->).
    apply resume_skills_keywords_split in Hk as [Hk | Hk];
      [left | right]; by exists k.
  - intros [(k & Hk & Hocc & ->) | (k & Hk & Hocc & ->)];
      exists k; (split; [|done]); apply resume_skills_keywords_split; auto.
Qed.

(** ** [match_candidate_to_job] *)

Lemma item_0_0_cosine_similarity (a b : Embedding) :
  item_0_0 (cosine_similarity [a] [b]) = cosine_kernel a b.
Proof. reflexivity. Qed.

Lemma match_candidate_to_job_value (self : TalentFinderAI)
    (candidate_profile job_description : string) :
  value (match_candidate_to_job self candidate_profile job_description)
  = let required := extract_skills job_description in
    let candidate := extract_skills candidate_profile in
    let matched := set_and (set_of required) (set_of candidate) in
    {| overall_match_score :=
         item_0_0 (cosine_similarity
                     [encode (similarity_model self) candidate_profile]
                     [encode (similarity_model self) job_description]);
       skill_match_ratio := match_ratio matched required;
       matched_skills := list_of matched;
       missing_skills := list_of (set_sub (set_of required) (set_of candidate));
       candidate_skills := candidate;
       required_skills := required |}.
Proof.
  unfold match_candidate_to_job, call_encode.
  by rewrite !value_bind, value_ret.
Qed.

Lemma match_candidate_to_job_calls (self : TalentFinderAI)
    (candidate_profile job_description : string) :
  calls (match_candidate_to_job self candidate_profile job_description)
  = [EncodeCall candidate_profile; EncodeCall job_description].
Proof.
  unfold match_candidate_to_job, call_encode.
  by rewrite !calls_bind, calls_ret.
Qed.

(** C2: the overall match score is the cosine similarity of the embedding
    of the candidate profile and the embedding of the job description,
    both produced by the sentence-embedding model. *)
Theorem overall_match_score_is_cosine (self : TalentFinderAI)
    (candidate_profile job_description : string) :
  overall_match_score
    (value (match_candidate_to_job self candidate_profile job_description))
  = cosine_kernel (encode (similarity_model self) candidate_profile)
                  (encode (similarity_model self) job_description).
Proof.
  rewrite match_candidate_to_job_value. cbn [overall_match_score].
  apply item_0_0_cosine_similarity.
Qed.

Lemma elem_of_matched (required candidate : list string) (x : string) :
  x ∈ list_of (set_and (set_of required) (set_of candidate))
  ↔ x ∈ required ∧ x ∈ candidate.
Proof.
  rewrite elem_of_list_of, members_set_and, !members_set_of.
  by rewrite elem_of_intersection, !elem_of_list_to_set.
Qed.

Lemma elem_of_missing (required candidate : list string) (x : string) :
  x ∈ list_of (set_sub (set_of required) (set_of candidate))
  ↔ x ∈ required ∧ x ∉ candidate.
Proof.
  rewrite elem_of_list_of, members_set_sub, !members_set_of.
  by rewrite elem_of_difference, !elem_of_list_to_set.
Qed.

(** C8: in the result of [match_candidate_to_job] no skill is both
    matched and missing, the matched and the missing skills together are
    the required skills, and every matched skill is a candidate skill. *)
Theorem matched_missing_partition (self : TalentFinderAI)
    (candidate_profile job_description : string) :
  let r := value (match_candidate_to_job self candidate_profile job_description) in
  (∀ x, x ∈ matched_skills r → x ∉ missing_skills r)
  ∧ (∀ x, x ∈ required_skills r
          ↔ x ∈ matched_skills r ∨ x ∈ missing_skills r)
  ∧ (∀ x, x ∈ matched_skills r → x ∈ candidate_skills r).
Proof.
  cbv zeta. rewrite match_candidate_to_job_value.
  cbn [matched_skills missing_skills required_skills candidate_skills].
  repeat split.
  - intros x. rewrite elem_of_matched, elem_of_missing. tauto.
  - intros Hx. rewrite elem_of_matched, elem_of_missing.
    destruct (decide (x ∈ extract_skills candidate_profile)); tauto.
  - rewrite elem_of_matched, elem_of_missing. tauto.
  - intros x. rewrite elem_of_matched. tauto.
Qed.

Lemma matched_length (required candidate : list string) :
  set_len (set_and (set_of required) (set_of candidate)) ≤ length required.
Proof.
  unfold set_len. apply submseteq_length, NoDup_submseteq.
  - apply NoDup_list_of.
  - intros x Hx. by apply elem_of_matched in Hx as [Hx _].
Qed.

Lemma match_ratio_bounds (matched : pyset) (required : list string) :
  set_len matched ≤ length required →
  (0 <= match_ratio matched required <= 1)%Q.
Proof.
  intros Hle. unfold match_ratio. destruct required as [|k required].
  - split; by vm_compute.
  - set (n := length (k :: required)) in *.
    assert (0 < inject_Z (Z.of_nat n))%Q as Hpos.
    { rewrite <- (Zlt_Qlt 0). subst n. simpl. lia. }
    split.
    + apply Qle_shift_div_l; [done|]. rewrite Qmult_0_l.
      rewrite <- (Zle_Qle 0). lia.
    + apply Qle_shift_div_r; [done|]. rewrite Qmult_1_l.
      rewrite <- Zle_Qle. lia.
Qed.

(** C7: the division behind [skill_match_ratio] is guarded: when no
    required skill is extracted from the job description the ratio is 0,
    and the ratio always lies between 0 and 1. *)
Theorem skill_match_ratio_guarded (self : TalentFinderAI)
    (candidate_profile job_description : string) :
  let r := value (match_candidate_to_job self candidate_profile job_description) in
  (extract_skills job_description = [] → skill_match_ratio r = 0%Q)
  ∧ (0 <= skill_match_ratio r <= 1)%Q.
Proof.
  cbv zeta. rewrite match_candidate_to_job_value. cbn [skill_match_ratio].
  split.
  - intros ->. reflexivity.
  - apply match_ratio_bounds, matched_length.
Qed.

(** ** Sorting in descending order of a key *)

Section Sorting.
Context {A : Type} (key : A → Q).

Lemma key_lt_true (x y : A) : key_lt key x y = true → descending key y x.
Proof.
  unfold key_lt, descending. rewrite negb_true_iff. intros Hnle.
  apply Qlt_le_weak, Qnot_le_lt. intros Hle.
  apply Qle_bool_iff in Hle. congruence.
Qed.

Lemma key_lt_false (x y : A) : key_lt key x y = false → descending key x y.
Proof.
  unfold key_lt, descending. rewrite negb_false_iff.
  apply Qle_bool_iff.
Qed.

Lemma insert_reverse_perm (x : A) (l : list A) :
  insert_reverse key x l ≡ₚ x :: l.
Proof.
  induction l as [|y l IH]; simpl; [done|].
  destruct (key_lt key x y); [|done].
  rewrite IH. apply perm_swap.
Qed.

Lemma sort_reverse_perm (l : list A) : sort_reverse key l ≡ₚ l.
Proof.
  unfold sort_reverse. induction l as [|x l IH]; simpl; [done|].
  by rewrite insert_reverse_perm, IH.
Qed.

Lemma insert_reverse_sorted (x : A) (l : list A) :
  StronglySorted (descending key) l →
  StronglySorted (descending key) (insert_reverse key x l).
Proof.
  induction 1 as [|y l Hsorted IH Hall]; simpl.
  - repeat constructor.
  - destruct (key_lt key x y) eqn:Hlt.
    + constructor; [done|].
      rewrite insert_reverse_perm. constructor; [|done].
      by apply key_lt_true.
    + apply key_lt_false in Hlt.
      constructor; [by constructor|].
      constructor; [done|].
      eapply Forall_impl; [exact Hall|]. intros z Hz.
      unfold descending in *. by apply Qle_trans with (key y).
Qed.

Lemma sort_reverse_sorted (l : list A) :
  StronglySorted (descending key) (sort_reverse key l).
Proof.
  unfold sort_reverse. induction l as [|x l IH]; simpl.
  - constructor.
  - by apply insert_reverse_sorted.
Qed.

Lemma sorted_take_drop (n : nat) (l : list A) (a b : A) :
  StronglySorted (descending key) l →
  a ∈ take n l → b ∈ drop n l → descending key a b.
Proof.
  intros Hsorted. revert n.
  induction Hsorted as [|y l Hsorted IH Hall]; intros n Ha Hb.
  - rewrite take_nil in Ha. by apply elem_of_nil in Ha.
  - destruct n as [|n]; simpl in *; [by apply elem_of_nil in Ha|].
    apply elem_of_cons in Ha as [-> | Ha]; [|by eapply IH].
    apply (proj1 (Forall_forall _ _) Hall).
    by apply (subseteq_drop n l).
Qed.

End Sorting.

(** ** [find_top_candidates] *)

Lemma match_each_value (self : TalentFinderAI) (job_description : string)
    (i : nat) (profiles : list string) :
  value (match_each self job_description i profiles)
  = imap (λ j, candidate_entry self job_description (i + j)) profiles.
Proof.
  revert i. induction profiles as [|profile rest IH]; intros i; [done|].
  cbn [match_each]. rewrite !value_bind, value_ret, IH, imap_cons.
  rewrite Nat.add_0_r. f_equal.
  apply imap_ext. intros j p _. simpl. f_equal. lia.
Qed.

Lemma find_top_candidates_value (self : TalentFinderAI)
    (job_description : string) (candidate_profiles : list string) (top_k : Z) :
  value (find_top_candidates self job_description candidate_profiles top_k)
  = slice_to (sort_reverse match_score
                (per_candidate self job_description candidate_profiles))
             top_k.
Proof.
  unfold find_top_candidates.
  by rewrite value_bind, value_ret, match_each_value.
Qed.

Lemma slice_to_nonneg {A : Type} (l : list A) (k : Z) :
  (0 ≤ k)%Z → slice_to l k = take (Z.to_nat k) l.
Proof. intros Hk. unfold slice_to. by rewrite (proj2 (Z.ltb_ge k 0) Hk). Qed.

(** C1, as the code has it: for every job description, every list of
    candidate profiles and every [top_k] that is not negative,
    [find_top_candidates] returns the per-candidate match results sorted
    by descending overall match score and cut to the first [top_k]
    entries; it returns [min(top_k, len(candidate_profiles))] results and
    each of them scores at least as high as every candidate left out. *)
Theorem find_top_candidates_spec (self : TalentFinderAI)
    (job_description : string) (candidate_profiles : list string)
    (top_k : Z) :
  (0 ≤ top_k)%Z →
  top_candidates_claim self job_description candidate_profiles top_k.
Proof.
  intros Hk. unfold top_candidates_claim. cbv zeta.
  rewrite find_top_candidates_value, slice_to_nonneg by done.
  set (results := per_candidate self job_description candidate_profiles).
  set (sorted := sort_reverse match_score results).
  assert (sorted ≡ₚ results) as Hperm by apply sort_reverse_perm.
  assert (StronglySorted (descending match_score) sorted) as Hsorted
    by apply sort_reverse_sorted.
  split; [by exists sorted|]. split.
  - rewrite length_take, Hperm. unfold results, per_candidate.
    rewrite length_imap. lia.
  - intros r c Hr Hc Hout.
    apply (sorted_take_drop match_score (Z.to_nat top_k) sorted r c);
      [done | done |].
    rewrite <- Hperm, <- (take_drop (Z.to_nat top_k) sorted) in Hc.
    apply elem_of_app in Hc as [Hc | Hc]; [done | done].
Qed.

(** ** [summarize_profile] without a summarizer *)

Lemma slice_to_literal {A : Type} (l : list A) (n : nat) :
  slice_to l (Z.of_nat n) = take n l.
Proof. rewrite slice_to_nonneg by lia. by rewrite Nat2Z.id. Qed.

(** C5: when [has_summarizer] is false, [summarize_profile] takes the
    fallback branch: it returns a string built from the first five skills
    of [extract_skills] and, when there are any, from the first two
    companies of [parse_resume]; the only model it calls is the entity
    recogniser behind [parse_resume], never the text-generation model or
    its tokenizer. *)
Theorem summarize_profile_fallback (self : TalentFinderAI)
    (profile_text : string) (max_length : Z) (rng : N) :
  has_summarizer self = false →
  ∃ companies,
    value (parse_resume self profile_text) !! "companies" = Some companies
    ∧ value (summarize_profile self profile_text max_length rng)
      = (let summary :=
           "Skills: "
           +:+ PyStr.join ", " (take 5 (extract_skills profile_text))
           +:+ ". " in
         match companies with
         | [] => Ok summary
         | _ :: _ =>
             Ok (summary +:+ ("Experience at: "
                   +:+ PyStr.join ", " (take 2 companies) +:+ "."))
         end)
    ∧ calls (summarize_profile self profile_text max_length rng)
      = [NerCall profile_text]
    ∧ Forall (λ c, is_summarizer_call c = false)
             (calls (summarize_profile self profile_text max_length rng)).
Proof.
  intros Hnone. unfold summarize_profile. rewrite Hnone. cbn [negb].
  assert (∃ companies,
            value (parse_resume self profile_text) !! "companies"
            = Some companies) as [companies Hcompanies].
  { apply (elem_of_dom (value (parse_resume self profile_text))).
    rewrite dom_parse_resume. unfold resume_keys.
    apply elem_of_list_to_set. set_solver. }
  exists companies. split; [done|].
  assert (calls (fallback_summary self profile_text) = [NerCall profile_text])
    as Hcalls.
  { unfold fallback_summary. rewrite calls_bind, parse_resume_calls, Hcompanies.
    by destruct companies. }
  unfold fallback_summary in *.
  rewrite value_bind, Hcompanies, Hcalls.
  change 5%Z with (Z.of_nat 5). change 2%Z with (Z.of_nat 2).
  rewrite !slice_to_literal.
  split; [by destruct companies|]. split; [done|].
  by repeat constructor.
Qed.

(** ** The constructor *)

(** The summarizer fails to load when one of its four steps raises. *)
Lemma load_summarizer_raises (w : loaders) (e : exc) :
  load_summarizer w = Raise e
  ↔ import_t5 w = Raise e
    ∨ (import_t5 w = Ok tt ∧ load_t5_tokenizer w = Raise e)
    ∨ (import_t5 w = Ok tt
       ∧ ∃ tokenizer, load_t5_tokenizer w = Ok tokenizer
         ∧ (load_t5_model w = Raise e
            ∨ ∃ model, load_t5_model w = Ok model
                       ∧ t5_eval w model = Raise e)).
Proof.
  unfold load_summarizer, mbind, result_mbind, result_bind, mret, result_mret.
  split.
  - intros Hraise.
    destruct (import_t5 w) as [[]|e1]; [|left; congruence].
    right. destruct (load_t5_tokenizer w) as [tokenizer|e2];
      [right | left; split; congruence].
    split; [done|]. exists tokenizer. split; [done|].
    destruct (load_t5_model w) as [model|e3]; [right | left; congruence].
    exists model. split; [done|].
    destruct (t5_eval w model) as [[]|e4]; congruence.
  - intros [-> | [[-> ->] | (-> & tokenizer & -> & [-> | (model & -> & ->)])]];
      reflexivity.
Qed.

(** C6: of the three models only the text-generation model is optional.
    When the recogniser and the encoder load and the summarizer does not,
    the constructor returns an object with [has_summarizer] false and
    both summarizer fields [None]; when the recogniser or the encoder
    fails to load, the constructor raises [ImportError]. *)
Theorem only_summarizer_is_optional (w : loaders) :
  (∀ ner_pipeline similarity e,
      load_ner w = Ok ner_pipeline →
      load_similarity_model w = Ok similarity →
      load_summarizer w = Raise e →
      __init__ w = Ok {| ner := ner_pipeline;
                         similarity_model := similarity;
                         summarizer_tokenizer := None;
                         summarizer_model := None;
                         has_summarizer := false |})
  ∧ (∀ e, load_ner w = Raise e →
          __init__ w = Raise (ImportError (error_msg e)))
  ∧ (∀ ner_pipeline e,
        load_ner w = Ok ner_pipeline →
        load_similarity_model w = Raise e →
        __init__ w = Raise (ImportError (error_msg e))).
Proof.
  unfold __init__, load_models, mbind, result_mbind, result_bind.
  repeat split.
  - intros ner_pipeline similarity e -> -> ->. reflexivity.
  - intros e ->. reflexivity.
  - intros ner_pipeline e -> ->. reflexivity.
Qed.

End Properties.

(* ================================================================= *)
(** * Further properties *)

(** ** Strings *)

Lemma to_lower_to_lower (c : ascii) :
  PyStr.to_lower (PyStr.to_lower c) = PyStr.to_lower c.
Proof. destruct c as [[] [] [] [] [] [] [] []]; reflexivity. Qed.

Lemma to_lower_to_upper (c : ascii) :
  PyStr.to_lower (PyStr.to_upper c) = PyStr.to_lower c.
Proof. destruct c as [[] [] [] [] [] [] [] []]; reflexivity. Qed.


Lemma lower_title_from (b : bool) (s : string) :
  PyStr.lower (PyStr.title_from b s) = PyStr.lower s.
Proof.
  revert b. induction s as [|c s IH]; intros b; simpl; [done|].
  rewrite IH. by destruct b; rewrite ?to_lower_to_lower, ?to_lower_to_upper.
Qed.

Lemma lower_title (s : string) : PyStr.lower (PyStr.title s) = PyStr.lower s.
Proof. apply lower_title_from. Qed.

Lemma lower_append (s t : string) :
  PyStr.lower (s +:+ t) = PyStr.lower s +:+ PyStr.lower t.
Proof.
  induction s as [|c s IH]; [done|].
  rewrite append_cons. simpl. by rewrite IH, append_cons.
Qed.

Lemma append_assoc (s t u : string) : (s +:+ t) +:+ u = s +:+ t +:+ u.
Proof.
  induction s as [|c s IH]; [done|]. by rewrite !append_cons, IH.
Qed.

Lemma length_append (s t : string) :
  String.length (s +:+ t) = String.length s + String.length t.
Proof.
  induction s as [|c s IH]; [done|]. rewrite append_cons. simpl. by rewrite IH.
Qed.

Lemma length_str_take (n : nat) (s : string) :
  String.length (PyStr.str_take n s) = n `min` String.length s.
Proof.
  unfold PyStr.str_take. revert s.
  induction n as [|n IH]; intros [|c s]; simpl; try done.
  by rewrite IH.
Qed.


Lemma str_take_prefix (n : nat) (s : string) :
  ∃ rest, s = PyStr.str_take n s +:+ rest.
Proof.
  unfold PyStr.str_take. revert s.
  induction n as [|n IH]; intros [|c s]; simpl.
  - by exists EmptyString.
  - by exists (String c s).
  - by exists EmptyString.
  - destruct (IH s) as [rest Hrest]. exists rest.
    by rewrite append_cons, <- Hrest.
Qed.

Lemma occurs_in_trans (a b c : string) :
  occurs_in a b → occurs_in b c → occurs_in a c.
Proof.
  intros (p1 & q1 & ->) (p2 & q2 & ->).
  exists (p2 +:+ p1), (q1 +:+ q2). by rewrite !append_assoc.
Qed.

Lemma occurs_in_lower (a b : string) :
  occurs_in a b → occurs_in (PyStr.lower a) (PyStr.lower b).
Proof.
  intros (p & q & ->). exists (PyStr.lower p), (PyStr.lower q).
  by rewrite !lower_append.
Qed.

(** Every keyword of both lists is already in lower case. *)
Lemma resume_skills_keywords_lower (k : string) :
  k ∈ resume_skills_keywords → PyStr.lower k = k.
Proof.
  assert (Forall (λ k, PyStr.lower k = k) resume_skills_keywords) as Hall.
  { apply (bool_decide_unpack _). by vm_compute. }
  intros Hk. by apply (proj1 (Forall_forall _ _) Hall).
Qed.

Lemma skills_keywords_lower (k : string) :
  k ∈ skills_keywords → PyStr.lower k = k.
Proof.
  intros Hk. by apply resume_skills_keywords_lower, skills_keywords_in_resume_list.
Qed.

Section Further.
Context `{PySet} `{Sklearn}.

(** ** Skill extraction *)

Lemma elem_of_extract_skills (text s : string) :
  s ∈ extract_skills text
  ↔ ∃ k, k ∈ skills_keywords
         ∧ occurs_in k (PyStr.lower text) ∧ s = PyStr.title k.
Proof.
  unfold extract_skills.
  by rewrite elem_of_remove_duplicates, elem_of_scan_keywords.
Qed.


(** X2: [extract_skills] is monotone: every skill found in a text is found
    in every text that contains it. *)
Theorem extract_skills_monotone (part whole : string) :
  occurs_in part whole →
  ∀ s, s ∈ extract_skills part → s ∈ extract_skills whole.
Proof.
  intros Hpart s. rewrite !elem_of_extract_skills.
  intros (k & Hk & Hocc & ->). exists k. split; [done|]. split; [|done].
  eapply occurs_in_trans; [exact Hocc|]. by apply occurs_in_lower.
Qed.

(** X3: lower-casing a skill returned by [extract_skills] gives back a
    keyword of the fixed list, and that keyword occurs in the lower-cased
    text. *)
Theorem extract_skills_lower_is_keyword (text s : string) :
  s ∈ extract_skills text →
  PyStr.lower s ∈ skills_keywords
  ∧ occurs_in (PyStr.lower s) (PyStr.lower text).
Proof.
  rewrite elem_of_extract_skills. intros (k & Hk & Hocc & ->).
  by rewrite lower_title, skills_keywords_lower.
Qed.

(** X4: a keyword that is part of another keyword is reported whenever the
    longer one is: the scan tests substrings, not words. *)
Theorem extract_skills_nested_keyword (text short long : string) :
  short ∈ skills_keywords →
  long ∈ skills_keywords →
  occurs_in short long →
  PyStr.title long ∈ extract_skills text →
  PyStr.title short ∈ extract_skills text.
Proof.
  intros Hshort Hlong Hnested.
  rewrite !elem_of_extract_skills. intros (k & Hk & Hocc & Htitle).
  assert (k = long) as ->.
  { rewrite <- (skills_keywords_lower k), <- (skills_keywords_lower long) by done.
    by rewrite <- (lower_title k), <- (lower_title long), Htitle. }
  exists short. split; [done|]. split; [|done].
  by eapply occurs_in_trans.
Qed.

(** ** Parsed resumes *)

Lemma lookup_organize_key (key group : string)
    (d : gmap string (list string)) (e : entity) :
  (key, group) ∈ entity_keys →
  organize d e !! key
  = if decide (default EmptyString (entity_group e) = group)
    then (λ l, l ++ [default EmptyString (word e)]) <$> d !! key
    else d !! key.
Proof.
  intros Hkey. unfold organize.
  destruct (String.eqb_spec (default EmptyString (entity_group e)) "PER")
    as [Hper | Hper];
  [| destruct (String.eqb_spec (default EmptyString (entity_group e)) "ORG")
       as [Horg | Horg];
     [| destruct (String.eqb_spec (default EmptyString (entity_group e)) "LOC")
          as [Hloc | Hloc] ] ];
  set_unfold;
  destruct Hkey as [[= -> ->] | [[= -> ->] | [[= -> ->] | []]]];
  rewrite ?lookup_dict_append;
  repeat case_decide; congruence.
Qed.

Lemma lookup_organize_all_key (key group : string)
    (es : list entity) (d : gmap string (list string)) :
  (key, group) ∈ entity_keys →
  fold_left organize es d !! key
  = (λ l, l ++ entity_words group es) <$> d !! key.
Proof.
  intros Hkey. revert d. induction es as [|e es IH]; intros d; simpl.
  - unfold entity_words. simpl. destruct (d !! key); simpl; [|done].
    by rewrite app_nil_r.
  - rewrite IH, (lookup_organize_key key group) by done.
    unfold entity_words. rewrite filter_cons.
    case_decide; [|done].
    destruct (d !! key); simpl; [|done]. by rewrite <- app_assoc.
Qed.

Lemma extracted_init_lookup (key : string) :
  key ∈ resume_keys → extracted_init !! key = Some [].
Proof.
  unfold resume_keys. rewrite elem_of_list_to_set. set_unfold.
  intros [-> | [-> | [-> | [-> | [-> | [-> | []]]]]]]; by vm_compute.
Qed.

Lemma parse_resume_entity_key (self : TalentFinderAI) (text key group : string) :
  (key, group) ∈ entity_keys →
  value (parse_resume self text) !! key
  = Some (remove_duplicates (entity_words group (ner self text))).
Proof.
  intros Hkey.
  assert (key ≠ "skills" ∧ key ∈ resume_keys) as [Hskills Hin].
  { unfold resume_keys. rewrite elem_of_list_to_set. set_unfold.
    destruct Hkey as [[= -> ->] | [[= -> ->] | [[= -> ->] | []]]];
      split; (done || tauto). }
  rewrite parse_resume_value, lookup_fmap, lookup_scan_into.
  rewrite decide_False by done.
  rewrite (lookup_organize_all_key key group) by done.
  by rewrite extracted_init_lookup.
Qed.

(** X5: in a parsed resume the names, companies and locations are, as sets
    and without duplicates, the words of the entities that the recogniser
    tagged PER, ORG and LOC; entities of any other group are dropped, and
    an entity without a word contributes the empty string. *)
Theorem parse_resume_entities (self : TalentFinderAI) (text : string) :
  Forall
    (λ '(key, group),
       ∃ l, value (parse_resume self text) !! key = Some l
            ∧ NoDup l
            ∧ ∀ x, x ∈ l
                   ↔ ∃ e, e ∈ ner self text
                          ∧ default EmptyString (entity_group e) = group
                          ∧ x = default EmptyString (word e))
    [ ("names", "PER"); ("companies", "ORG"); ("locations", "LOC") ].
Proof.
  apply Forall_forall. intros [key group] Hkey.
  eexists. split; [by apply parse_resume_entity_key|].
  split; [apply NoDup_remove_duplicates|]. intros x.
  rewrite elem_of_remove_duplicates. unfold entity_words.
  rewrite list_elem_of_fmap. split.
  - intros (e & -> & He). apply list_elem_of_filter in He as [Hgroup He].
    by exists e.
  - intros (e & He & Hgroup & ->). exists e. split; [done|].
    by apply list_elem_of_filter.
Qed.

(** X6: the skills of a parsed resume are, without duplicates, exactly the
    title-cased forms of the keywords of the list of [parse_resume] that
    occur in the lower-cased resume; the entities found by the recogniser
    never add a skill. *)
Theorem parse_resume_skills_spec (self : TalentFinderAI) (text : string) :
  ∃ skills,
    value (parse_resume self text) !! "skills" = Some skills
    ∧ NoDup skills
    ∧ ∀ s, s ∈ skills
           ↔ ∃ k, k ∈ resume_skills_keywords
                  ∧ occurs_in k (PyStr.lower text)
                  ∧ s = PyStr.title k.
Proof.
  eexists. split; [apply parse_resume_skills|].
  split; [apply NoDup_remove_duplicates|]. intros s.
  by rewrite elem_of_remove_duplicates, elem_of_scan_keywords.
Qed.

(** ** Matching *)

Lemma NoDup_extract_skills (text : string) : NoDup (extract_skills text).
Proof. apply NoDup_remove_duplicates. Qed.

Lemma matched_missing_perm (required candidate : list string) :
  NoDup required →
  list_of (set_and (set_of required) (set_of candidate))
  ++ list_of (set_sub (set_of required) (set_of candidate))
  ≡ₚ required.
Proof.
  intros Hnodup. apply NoDup_Permutation; [|done|].
  - apply NoDup_app. split; [apply NoDup_list_of|].
    split; [|apply NoDup_list_of].
    intros x. rewrite elem_of_matched, elem_of_missing. tauto.
  - intros x. rewrite elem_of_app, elem_of_matched, elem_of_missing.
    destruct (decide (x ∈ candidate)); tauto.
Qed.

Lemma matched_missing_length (required candidate : list string) :
  NoDup required →
  length (list_of (set_and (set_of required) (set_of candidate)))
  + length (list_of (set_sub (set_of required) (set_of candidate)))
  = length required.
Proof.
  intros Hnodup. rewrite <- length_app.
  by rewrite (matched_missing_perm _ _ Hnodup).
Qed.

(** X7: every required skill is counted once, as matched or as missing:
    the lengths of [matched_skills] and [missing_skills] add up to the
    length of [required_skills]. *)
Theorem matched_missing_count (self : TalentFinderAI)
    (candidate_profile job_description : string) :
  let r := value (match_candidate_to_job self candidate_profile job_description) in
  length (matched_skills r) + length (missing_skills r)
  = length (required_skills r).
Proof.
  cbv zeta. rewrite match_candidate_to_job_value.
  cbn [matched_skills missing_skills required_skills].
  apply matched_missing_length, NoDup_extract_skills.
Qed.

Lemma quotient_eq (a n : nat) (q : Z) :
  0 < n →
  (inject_Z (Z.of_nat a) / inject_Z (Z.of_nat n) == inject_Z q)%Q
  ↔ Z.of_nat a = (q * Z.of_nat n)%Z.
Proof.
  intros Hn. destruct n as [|n]; [lia|].
  replace (Z.of_nat (S n)) with (Z.pos (Pos.of_succ_nat n)) by lia.
  rewrite <- Qmake_Qdiv. unfold Qeq, inject_Z. simpl. lia.
Qed.

Lemma match_ratio_eq (matched : pyset) (required : list string) (q : Z) :
  required ≠ [] →
  (match_ratio matched required == inject_Z q)%Q
  ↔ Z.of_nat (set_len matched) = (q * Z.of_nat (length required))%Z.
Proof.
  intros Hne. unfold match_ratio. destruct required as [|k required]; [done|].
  apply quotient_eq. simpl. lia.
Qed.

(** X8: provided the job description yields a required skill, the skill
    match ratio is 1 exactly when no required skill is missing, and 0
    exactly when no required skill is matched. *)
Theorem skill_match_ratio_extremes (self : TalentFinderAI)
    (candidate_profile job_description : string) :
  let r := value (match_candidate_to_job self candidate_profile job_description) in
  required_skills r ≠ [] →
  ((skill_match_ratio r == 1)%Q ↔ missing_skills r = [])
  ∧ ((skill_match_ratio r == 0)%Q ↔ matched_skills r = []).
Proof.
  cbv zeta. rewrite match_candidate_to_job_value.
  cbn [matched_skills missing_skills required_skills skill_match_ratio].
  intros Hne.
  pose proof (matched_missing_length (extract_skills job_description)
                (extract_skills candidate_profile)
                (NoDup_extract_skills job_description)) as Hcount.
  change 1%Q with (inject_Z 1). change 0%Q with (inject_Z 0).
  rewrite !match_ratio_eq by done. unfold set_len in *.
  rewrite <- !length_zero_iff_nil. lia.
Qed.

(** X9: matching a text against itself leaves no skill missing, and the
    matched skills are the required skills. *)
Theorem match_against_itself (self : TalentFinderAI) (text : string) :
  let r := value (match_candidate_to_job self text text) in
  missing_skills r = []
  ∧ ∀ x, x ∈ matched_skills r ↔ x ∈ required_skills r.
Proof.
  cbv zeta. rewrite match_candidate_to_job_value.
  cbn [matched_skills missing_skills required_skills]. split.
  - apply elem_of_nil_inv. intros x. rewrite elem_of_missing. tauto.
  - intros x. rewrite elem_of_matched. tauto.
Qed.

(** ** Model calls of the ranking *)

Lemma match_each_calls (self : TalentFinderAI) (job_description : string)
    (i : nat) (profiles : list string) :
  calls (match_each self job_description i profiles)
  = encode_calls job_description profiles.
Proof.
  revert i. induction profiles as [|profile rest IH]; intros i; [done|].
  cbn [match_each].
  rewrite !calls_bind, calls_ret, match_candidate_to_job_calls, IH.
  by rewrite app_nil_r.
Qed.

(** X10: [find_top_candidates] calls the sentence encoder twice for each
    candidate, once on the profile and once more on the job description,
    and calls no other model: with n candidates it makes 2n calls. *)
Theorem find_top_candidates_calls (self : TalentFinderAI)
    (job_description : string) (candidate_profiles : list string) (top_k : Z) :
  let log :=
    calls (find_top_candidates self job_description candidate_profiles top_k) in
  log = (candidate_profiles ≫= λ profile,
           [EncodeCall profile; EncodeCall job_description])
  ∧ length log = 2 * length candidate_profiles.
Proof.
  cbv zeta. unfold find_top_candidates.
  rewrite calls_bind, calls_ret, app_nil_r, match_each_calls.
  split; [done|]. unfold encode_calls.
  induction candidate_profiles as [|p ps IH]; [done|].
  rewrite bind_cons, length_app, IH. simpl. lia.
Qed.

(** ** Ranking *)

Lemma slice_to_sublist {A : Type} (l : list A) (k : Z) :
  slice_to l k `sublist_of` l.
Proof. unfold slice_to. case_match; apply sublist_take. Qed.

Lemma elem_of_slice_to {A : Type} (l : list A) (k : Z) (x : A) :
  x ∈ slice_to l k → x ∈ l.
Proof. intros Hx. eapply elem_of_sublist; [exact Hx | apply slice_to_sublist]. Qed.

Lemma slice_to_negative {A : Type} (l : list A) (k : Z) :
  (k < 0)%Z → slice_to l k = take (Z.to_nat (Z.of_nat (length l) + k)) l.
Proof. intros Hk. unfold slice_to. by rewrite (proj2 (Z.ltb_lt k 0) Hk). Qed.

Lemma length_per_candidate (self : TalentFinderAI) (job_description : string)
    (profiles : list string) :
  length (per_candidate self job_description profiles) = length profiles.
Proof. unfold per_candidate. apply length_imap. Qed.

Lemma elem_of_per_candidate (self : TalentFinderAI) (job_description : string)
    (profiles : list string) (r : candidate_result) :
  r ∈ per_candidate self job_description profiles →
  ∃ profile, profiles !! candidate_id r = Some profile
             ∧ r = candidate_entry self job_description (candidate_id r) profile.
Proof.
  unfold per_candidate. rewrite elem_of_lookup_imap.
  intros (i & profile & -> & Hlookup). by exists profile.
Qed.

Lemma per_candidate_ids (self : TalentFinderAI) (job_description : string)
    (profiles : list string) :
  candidate_id <$> per_candidate self job_description profiles
  = seq 0 (length profiles).
Proof.
  unfold per_candidate. rewrite fmap_imap.
  rewrite (imap_ext _ (λ j _, id j)) by done.
  by rewrite imap_seq_0, list_fmap_id.
Qed.

(** Whatever prefix of the sorted results is kept, nothing left out scores
    higher than something kept. *)
Lemma take_sorted_is_best (self : TalentFinderAI) (job_description : string)
    (profiles : list string) (n : nat) (r c : candidate_result) :
  let results := per_candidate self job_description profiles in
  r ∈ take n (sort_reverse match_score results) →
  c ∈ results →
  c ∉ take n (sort_reverse match_score results) →
  (match_score c <= match_score r)%Q.
Proof.
  cbv zeta. intros Hr Hc Hout.
  apply (sorted_take_drop match_score n
           (sort_reverse match_score
              (per_candidate self job_description profiles)) r c);
    [apply sort_reverse_sorted | done |].
  rewrite <- (sort_reverse_perm match_score),
    <- (take_drop n (sort_reverse match_score _)) in Hc.
  by apply elem_of_app in Hc as [Hc | Hc].
Qed.

(** X11: each returned result carries the position of its profile in the
    input: [candidate_profiles[candidate_id]] is the profile it was computed
    from, and no position is returned twice. *)
Theorem returned_candidate_ids (self : TalentFinderAI)
    (job_description : string) (candidate_profiles : list string) (top_k : Z) :
  let returned :=
    value (find_top_candidates self job_description candidate_profiles top_k) in
  NoDup (candidate_id <$> returned)
  ∧ ∀ r, r ∈ returned →
         ∃ profile,
           candidate_profiles !! candidate_id r = Some profile
           ∧ matching r
             = value (match_candidate_to_job self profile job_description)
           ∧ profile_preview r = preview profile.
Proof.
  cbv zeta. rewrite find_top_candidates_value. split.
  - eapply sublist_NoDup;
      [|apply fmap_sublist, slice_to_sublist].
    rewrite (sort_reverse_perm match_score), per_candidate_ids.
    apply NoDup_seq.
  - intros r Hr. apply elem_of_slice_to in Hr.
    rewrite (sort_reverse_perm match_score) in Hr.
    apply elem_of_per_candidate in Hr as (profile & Hlookup & Hr).
    exists profile. split; [done|]. by rewrite Hr.
Qed.

(** X12: a negative [top_k] drops the [-top_k] lowest-ranked candidates:
    with n candidates, max(0, n + top_k) results come back, and each of
    them scores at least as high as every candidate left out. *)
Theorem find_top_candidates_negative_top_k (self : TalentFinderAI)
    (job_description : string) (candidate_profiles : list string) (top_k : Z) :
  (top_k < 0)%Z →
  let returned :=
    value (find_top_candidates self job_description candidate_profiles top_k) in
  let results := per_candidate self job_description candidate_profiles in
  Z.of_nat (length returned)
  = Z.max 0 (Z.of_nat (length candidate_profiles) + top_k)
  ∧ ∀ r c, r ∈ returned → c ∈ results → c ∉ returned →
           (match_score c <= match_score r)%Q.
Proof.
  intros Hk. cbv zeta.
  rewrite find_top_candidates_value, slice_to_negative by done.
  rewrite (sort_reverse_perm match_score) at 1.
  rewrite length_per_candidate. split.
  - rewrite length_take, (sort_reverse_perm match_score), length_per_candidate.
    lia.
  - intros r c. apply take_sorted_is_best.
Qed.

(** X13: when [top_k] is at least the number of candidates, every candidate
    is returned: the result is the whole list of per-candidate results,
    rearranged in descending order of score. *)
Theorem find_top_candidates_returns_all (self : TalentFinderAI)
    (job_description : string) (candidate_profiles : list string) (top_k : Z) :
  (Z.of_nat (length candidate_profiles) ≤ top_k)%Z →
  let returned :=
    value (find_top_candidates self job_description candidate_profiles top_k) in
  returned ≡ₚ per_candidate self job_description candidate_profiles
  ∧ StronglySorted (descending match_score) returned.
Proof.
  intros Hk. cbv zeta.
  rewrite find_top_candidates_value, slice_to_nonneg by lia.
  rewrite take_ge.
  - split; [apply sort_reverse_perm | apply sort_reverse_sorted].
  - rewrite (sort_reverse_perm match_score), length_per_candidate. lia.
Qed.

(** *** Ties *)

Section Stability.
Context {A : Type} (key : A → Q) (R : A → A → Prop).

Lemma insert_reverse_stable (x : A) (s : list A) :
  StronglySorted (ranked_before key R) s →
  Forall (R x) s →
  StronglySorted (ranked_before key R) (insert_reverse key x s).
Proof.
  induction 1 as [|y s Hsorted IH Hall]; intros Hx; simpl.
  - repeat constructor.
  - apply Forall_cons in Hx as [Hxy Hxs].
    destruct (key_lt key x y) eqn:Hlt.
    + assert (key x < key y)%Q as Hless.
      { unfold key_lt in Hlt. apply negb_true_iff in Hlt.
        apply Qnot_le_lt. intros Hle. apply Qle_bool_iff in Hle. congruence. }
      constructor; [by apply IH|].
      rewrite insert_reverse_perm. constructor; [by left | done].
    + assert (key y <= key x)%Q as Hle.
      { unfold key_lt in Hlt. apply negb_false_iff in Hlt.
        by apply Qle_bool_iff. }
      constructor; [by constructor|].
      apply Qle_lt_or_eq in Hle as [Hless | Heq].
      * constructor; [by left|].
        eapply Forall_impl; [exact Hall|]. intros z [Hz | [Hz _]]; left.
        -- by apply Qlt_trans with (key y).
        -- by rewrite <- Hz.
      * constructor; [right; by split|].
        apply Forall_forall. intros z Hz.
        pose proof (proj1 (Forall_forall _ _) Hall z Hz) as [Hyz | [Hyz _]].
        -- left. by rewrite <- Heq.
        -- right. split; [by rewrite <- Heq|].
           by apply (proj1 (Forall_forall _ _) Hxs).
Qed.

Lemma sort_reverse_stable (l : list A) :
  StronglySorted R l →
  StronglySorted (ranked_before key R) (sort_reverse key l).
Proof.
  unfold sort_reverse. induction 1 as [|x l Hsorted IH Hall]; simpl.
  - constructor.
  - apply insert_reverse_stable; [done|].
    by rewrite (sort_reverse_perm key l).
Qed.

End Stability.

Lemma StronglySorted_take_lookup {A : Type} (R : A → A → Prop)
    (l : list A) (n i j : nat) (a b : A) :
  StronglySorted R l →
  take n l !! i = Some a → take n l !! j = Some b → i < j → R a b.
Proof.
  intros Hsorted. revert n i j.
  induction Hsorted as [|x l Hsorted IH Hall]; intros n i j Ha Hb Hij.
  - by rewrite take_nil in Ha.
  - destruct n as [|n]; [done|]. destruct j as [|j]; [lia|].
    simpl in Hb. destruct i as [|i]; simpl in Ha.
    + injection Ha as <-. apply (proj1 (Forall_forall _ _) Hall).
      apply list_elem_of_lookup_2 in Hb.
      eapply elem_of_sublist; [exact Hb | apply sublist_take].
    + apply (IH n i j); [done | done | lia].
Qed.

Lemma per_candidate_earlier (self : TalentFinderAI) (job_description : string)
    (profiles : list string) :
  StronglySorted earlier (per_candidate self job_description profiles).
Proof.
  unfold per_candidate.
  assert (∀ i,
            StronglySorted earlier
              (imap (λ j, candidate_entry self job_description (i + j)) profiles)
            ∧ Forall (λ a, i ≤ candidate_id a)
                (imap (λ j, candidate_entry self job_description (i + j)) profiles))
    as Hfrom.
  { induction profiles as [|p ps IH]; intros i; [by split; constructor|].
    rewrite imap_cons.
    rewrite (imap_ext _ (λ j, candidate_entry self job_description (S i + j)))
      by (intros; simpl; f_equal; lia).
    destruct (IH (S i)) as [Hsorted Hall]. split.
    - constructor; [done|]. eapply Forall_impl; [exact Hall|].
      intros a Ha. unfold earlier, candidate_entry. simpl in *. lia.
    - constructor; [unfold candidate_entry; simpl; lia|].
      eapply Forall_impl; [exact Hall|].
      intros a Ha. simpl in Ha. lia. }
  apply (Hfrom 0).
Qed.

(** X14: ties keep the order of the input: of two returned results with
    equal scores, the one listed first is the one whose profile comes
    first in [candidate_profiles]. *)
Theorem find_top_candidates_ties (self : TalentFinderAI)
    (job_description : string) (candidate_profiles : list string) (top_k : Z)
    (i j : nat) (a b : candidate_result) :
  let returned :=
    value (find_top_candidates self job_description candidate_profiles top_k) in
  returned !! i = Some a →
  returned !! j = Some b →
  i < j →
  (match_score a == match_score b)%Q →
  candidate_id a < candidate_id b.
Proof.
  cbv zeta. rewrite find_top_candidates_value. intros Ha Hb Hij Htie.
  assert (ranked_before match_score earlier a b) as [Hless | [_ Hearlier]].
  { unfold slice_to in Ha, Hb.
    destruct (top_k <? 0)%Z;
      eapply (StronglySorted_take_lookup _ _ _ i j a b);
      eauto using sort_reverse_stable, per_candidate_earlier. }
  - rewrite Htie in Hless. by apply Qlt_irrefl in Hless.
  - done.
Qed.

(** X15: a profile preview is never longer than 153 characters: a profile
    of at most 150 characters is its own preview, and a longer one is cut
    to its first 150 characters followed by three dots. *)
Theorem preview_bounded (profile : string) :
  String.length (preview profile) ≤ 153
  ∧ (String.length profile ≤ 150 → preview profile = profile)
  ∧ (150 < String.length profile →
     ∃ first rest, profile = first +:+ rest
                   ∧ String.length first = 150
                   ∧ preview profile = first +:+ "...").
Proof.
  unfold preview.
  destruct (Nat.ltb_spec 150 (String.length profile)) as [Hlong | Hshort].
  - split; [|split; [lia|]].
    + rewrite length_append, length_str_take.
      change (String.length "...") with 3. lia.
    + intros _. destruct (str_take_prefix 150 profile) as [rest Hrest].
      exists (PyStr.str_take 150 profile), rest.
      split; [done|]. split; [|done]. rewrite length_str_take. lia.
  - split; [lia|]. split; [done | lia].
Qed.

(** ** The constructor, continued *)

Lemma init_cases (w : loaders) (self : TalentFinderAI) :
  __init__ w = Ok self →
  ∃ ner_pipeline similarity,
    load_ner w = Ok ner_pipeline
    ∧ load_similarity_model w = Ok similarity
    ∧ ((∃ tokenizer model,
          load_summarizer w = Ok (tokenizer, model)
          ∧ self = {| ner := ner_pipeline;
                      similarity_model := similarity;
                      summarizer_tokenizer := Some tokenizer;
                      summarizer_model := Some model;
                      has_summarizer := true |})
       ∨ (∃ e, load_summarizer w = Raise e
               ∧ self = {| ner := ner_pipeline;
                           similarity_model := similarity;
                           summarizer_tokenizer := None;
                           summarizer_model := None;
                           has_summarizer := false |})).
Proof.
  unfold __init__, load_models, mbind, result_mbind, result_bind, mret,
    result_mret.
  destruct (load_ner w) as [ner_pipeline|]; [|done].
  destruct (load_similarity_model w) as [similarity|]; [|done].
  intros Hself. exists ner_pipeline, similarity. split; [done|]. split; [done|].
  destruct (load_summarizer w) as [[tokenizer model]|e];
    injection Hself as <-; [left | right]; eauto.
Qed.

(** X16: on every object the constructor returns, the flag and the fields
    agree: either [has_summarizer] is true and both the tokenizer and the
    model are present, or it is false and both are [None]; a half-loaded
    summarizer is never kept. *)
Theorem init_summarizer_consistent (w : loaders) (self : TalentFinderAI) :
  __init__ w = Ok self →
  (has_summarizer self = true
   ∧ is_Some (summarizer_tokenizer self)
   ∧ is_Some (summarizer_model self))
  ∨ (has_summarizer self = false
     ∧ summarizer_tokenizer self = None
     ∧ summarizer_model self = None).
Proof.
  intros Hinit.
  apply init_cases in Hinit
    as (n & s & _ & _ & [(tok & m & _ & ->) | (e & _ & ->)]);
    [left | right]; simpl; eauto.
Qed.



(** ** Summaries, continued *)




End Further.

(* ================================================================= *)
(** * The definitions at work *)

Example title_node_js : PyStr.title "node.js" = "Node.Js".
Proof. reflexivity. Qed.

Example title_machine_learning :
  PyStr.title "machine learning" = "Machine Learning".
Proof. reflexivity. Qed.

Example lower_mixed : PyStr.lower "Rust & Node.JS" = "rust & node.js".
Proof. reflexivity. Qed.

(** The twenty keywords that [parse_resume] looks for and [extract_skills]
    does not. *)
Example resume_only_keywords_are :
  resume_only_keywords
  = [ "mysql"; "redis"; "gcp"; "jenkins"; "git"; "github"; "gitlab"; "ci/cd";
      "deep learning"; "html"; "css"; "typescript"; "php"; "ruby"; "go";
      "rust"; "teamwork"; "problem solving"; "analytical"; "creative" ].
Proof. by vm_compute. Qed.

Section Runs.
#[local] Existing Instance Demo.gset_sets.
#[local] Existing Instance Demo.unit_kernel.

Example init_no_sentencepiece :
  __init__ Demo.no_sentencepiece = Ok Demo.finder.
Proof. reflexivity. Qed.

Example extract_skills_run :
  extract_skills "Senior Python developer, some JavaScript"
  = ["Javascript"; "Java"; "Python"].
Proof. by vm_compute. Qed.

Example slice_negative_stop : slice_to [1; 2; 3] (-1) = [1; 2].
Proof. reflexivity. Qed.

Lemma scan_rust_resume_list :
  scan_keywords resume_skills_keywords (PyStr.lower "rust") [] = ["Rust"].
Proof. vm_compute. reflexivity. Qed.

Lemma scan_rust_extract_list :
  scan_keywords skills_keywords (PyStr.lower "rust") [] = [].
Proof. vm_compute. reflexivity. Qed.

(** C4 fails on the text "rust": [parse_resume] finds the skill Rust,
    [extract_skills] finds nothing. *)
Lemma parse_resume_finds_more_skills :
  ¬ same_skills_as_extract_skills Demo.finder "rust".
Proof.
  intros (skills & Hskills & Hsame).
  rewrite parse_resume_skills, scan_rust_resume_list in Hskills.
  specialize (Hsame "Rust"). unfold extract_skills in Hsame.
  rewrite scan_rust_extract_list in Hsame.
  rewrite (elem_of_remove_duplicates []) in Hsame.
  apply (inj Some) in Hskills. subst skills.
  rewrite (elem_of_remove_duplicates ["Rust"]) in Hsame.
  apply (elem_of_nil "Rust"), Hsame. left.
Qed.

Lemma two_candidates_top_k_minus_one :
  length (value (find_top_candidates Demo.finder "python aws"
                   ["java"; "python"] (-1)))
  = 1.
Proof. vm_compute. reflexivity. Qed.

(** C1 fails for [top_k = -1] and two candidates: the slice drops the
    last entry and one result comes back, not [min(-1, 2)]. *)
Lemma negative_top_k_keeps_results :
  ¬ top_candidates_claim Demo.finder "python aws" ["java"; "python"] (-1).
Proof.
  intros (_ & Hlength & _).
  rewrite two_candidates_top_k_minus_one in Hlength.
  simpl in Hlength. lia.
Qed.

Lemma find_top_candidates_spec_witness :
  (0 ≤ 1)%Z
  ∧ top_candidates_claim Demo.finder "python aws" ["java"; "python"] 1.
Proof.
  split; [lia|]. apply find_top_candidates_spec. lia.
Defined.

Lemma summarize_profile_fallback_witness :
  has_summarizer Demo.finder = false
  ∧ calls (summarize_profile Demo.finder "python at Google" 100 0%N)
    = [NerCall "python at Google"].
Proof.
  split; [reflexivity|].
  destruct (summarize_profile_fallback
              Demo.finder "python at Google" 100 0%N eq_refl)
    as (companies & _ & _ & Hcalls & _).
  exact Hcalls.
Defined.

Example summarize_profile_run :
  value (summarize_profile Demo.finder "python at Google" 100 0%N)
  = Ok "Skills: Python. Experience at: Google.".
Proof. vm_compute. reflexivity. Qed.

Lemma skill_match_ratio_guarded_witness :
  extract_skills "office manager" = []
  ∧ skill_match_ratio
      (value (match_candidate_to_job Demo.finder "python" "office manager"))
    = 0%Q.
Proof.
  assert (extract_skills "office manager" = []) as Hnone
    by (vm_compute; reflexivity).
  split; [exact Hnone|].
  exact (proj1 (skill_match_ratio_guarded
                  Demo.finder "python" "office manager") Hnone).
Defined.

Lemma only_summarizer_is_optional_witness :
  load_summarizer Demo.no_sentencepiece
  = Raise (ImportError "sentencepiece is missing")
  ∧ __init__ Demo.no_sentencepiece = Ok Demo.finder.
Proof.
  split; [reflexivity|].
  exact (proj1 (only_summarizer_is_optional Demo.no_sentencepiece)
           Demo.toy_ner Demo.toy_encoder
           (ImportError "sentencepiece is missing")
           eq_refl eq_refl eq_refl).
Defined.

End Runs.

Section MoreRuns.
#[local] Existing Instance Demo.gset_sets.
#[local] Existing Instance Demo.unit_kernel.

Lemma occurs_in_python_resume : occurs_in "python" "python and sql".
Proof. apply contains_spec. vm_compute. reflexivity. Defined.

Lemma extract_skills_monotone_witness :
  occurs_in "python" "python and sql"
  ∧ ∀ s, s ∈ extract_skills "python" → s ∈ extract_skills "python and sql".
Proof.
  split; [exact occurs_in_python_resume|].
  exact (extract_skills_monotone "python" "python and sql"
           occurs_in_python_resume).
Defined.

Lemma python_is_extracted : "Python" ∈ extract_skills "I like Python".
Proof.
  apply elem_of_extract_skills. exists "python".
  split; [by apply (bool_decide_unpack _); vm_compute|].
  split; [|reflexivity]. apply contains_spec. vm_compute. reflexivity.
Defined.

Lemma extract_skills_lower_is_keyword_witness :
  "Python" ∈ extract_skills "I like Python"
  ∧ PyStr.lower "Python" ∈ skills_keywords.
Proof.
  split; [exact python_is_extracted|].
  exact (proj1 (extract_skills_lower_is_keyword
                  "I like Python" "Python" python_is_extracted)).
Defined.

Lemma java_in_javascript : occurs_in "java" "javascript".
Proof. apply contains_spec. vm_compute. reflexivity. Defined.

Lemma java_is_keyword : "java" ∈ skills_keywords.
Proof. apply (bool_decide_unpack _). vm_compute. exact I. Defined.

Lemma javascript_is_keyword : "javascript" ∈ skills_keywords.
Proof. apply (bool_decide_unpack _). vm_compute. exact I. Defined.

Lemma javascript_is_extracted :
  PyStr.title "javascript" ∈ extract_skills "JavaScript only".
Proof.
  apply elem_of_extract_skills. exists "javascript".
  split; [exact javascript_is_keyword|].
  split; [|reflexivity]. apply contains_spec. vm_compute. reflexivity.
Defined.

Lemma extract_skills_nested_keyword_witness :
  PyStr.title "javascript" ∈ extract_skills "JavaScript only"
  ∧ PyStr.title "java" ∈ extract_skills "JavaScript only".
Proof.
  split; [exact javascript_is_extracted|].
  exact (extract_skills_nested_keyword "JavaScript only" "java" "javascript"
           java_is_keyword javascript_is_keyword java_in_javascript
           javascript_is_extracted).
Defined.

Lemma python_aws_requires_skills :
  required_skills
    (value (match_candidate_to_job Demo.finder "python sql" "python aws"))
  ≠ [].
Proof.
  assert (required_skills
            (value (match_candidate_to_job Demo.finder "python sql" "python aws"))
          = ["Aws"; "Python"]) as -> by (vm_compute; reflexivity).
  discriminate.
Defined.

Lemma skill_match_ratio_extremes_witness :
  required_skills
    (value (match_candidate_to_job Demo.finder "python sql" "python aws"))
  ≠ []
  ∧ ((skill_match_ratio
        (value (match_candidate_to_job Demo.finder "python sql" "python aws"))
      == 1)%Q
     ↔ missing_skills
         (value (match_candidate_to_job Demo.finder "python sql" "python aws"))
       = []).
Proof.
  split; [exact python_aws_requires_skills|].
  exact (proj1 (skill_match_ratio_extremes Demo.finder "python sql" "python aws"
                  python_aws_requires_skills)).
Defined.

Lemma find_top_candidates_negative_top_k_witness :
  (-1 < 0)%Z
  ∧ Z.of_nat (length (value (find_top_candidates Demo.finder "python aws"
                               ["java"; "python"] (-1))))
    = Z.max 0 (Z.of_nat (length ["java"; "python"]) + -1).
Proof.
  split; [lia|].
  exact (proj1 (find_top_candidates_negative_top_k Demo.finder "python aws"
                  ["java"; "python"] (-1) ltac:(lia))).
Defined.

Lemma find_top_candidates_returns_all_witness :
  (Z.of_nat (length ["java"; "python"]) ≤ 5)%Z
  ∧ value (find_top_candidates Demo.finder "python aws" ["java"; "python"] 5)
    ≡ₚ per_candidate Demo.finder "python aws" ["java"; "python"].
Proof.
  assert (Z.of_nat (length ["java"; "python"]) ≤ 5)%Z as Hk by (simpl; lia).
  split; [exact Hk|].
  exact (proj1 (find_top_candidates_returns_all Demo.finder "python aws"
                  ["java"; "python"] 5 Hk)).
Defined.

Lemma flat_first :
  value (find_top_candidates Cases.flat_finder "job" ["ann"; "bob"] 2) !! 0
  = Some (candidate_entry Cases.flat_finder "job" 0 "ann").
Proof. vm_compute. reflexivity. Defined.

Lemma flat_second :
  value (find_top_candidates Cases.flat_finder "job" ["ann"; "bob"] 2) !! 1
  = Some (candidate_entry Cases.flat_finder "job" 1 "bob").
Proof. vm_compute. reflexivity. Defined.

Lemma flat_tie :
  (match_score (candidate_entry Cases.flat_finder "job" 0 "ann")
   == match_score (candidate_entry Cases.flat_finder "job" 1 "bob"))%Q.
Proof. vm_compute. reflexivity. Defined.

Lemma find_top_candidates_ties_witness :
  (match_score (candidate_entry Cases.flat_finder "job" 0 "ann")
   == match_score (candidate_entry Cases.flat_finder "job" 1 "bob"))%Q
  ∧ candidate_id (candidate_entry Cases.flat_finder "job" 0 "ann")
    < candidate_id (candidate_entry Cases.flat_finder "job" 1 "bob").
Proof.
  split; [exact flat_tie|].
  exact (find_top_candidates_ties Cases.flat_finder "job" ["ann"; "bob"] 2
           0 1 _ _ flat_first flat_second ltac:(lia) flat_tie).
Defined.

Lemma init_full_install : __init__ Cases.full_install = Ok Cases.full_finder.
Proof. reflexivity. Defined.

Lemma init_summarizer_consistent_witness :
  __init__ Cases.full_install = Ok Cases.full_finder
  ∧ ((has_summarizer Cases.full_finder = true
      ∧ is_Some (summarizer_tokenizer Cases.full_finder)
      ∧ is_Some (summarizer_model Cases.full_finder))
     ∨ (has_summarizer Cases.full_finder = false
        ∧ summarizer_tokenizer Cases.full_finder = None
        ∧ summarizer_model Cases.full_finder = None)).
Proof.
  split; [exact init_full_install|].
  exact (init_summarizer_consistent Cases.full_install Cases.full_finder
           init_full_install).
Defined.








Example summarize_long_profile_run :
  value (summarize_profile Cases.full_finder
           (Cases.long_profile +:+ ", and much more") 100 0%N)
  = Ok "long".
Proof. vm_compute. reflexivity. Qed.

End MoreRuns.
